(** * finch.js: the frame codec, the command facade and the session lifecycle

    A shallow embedding of [finch.js], the WebHID driver of the Finch
    robot, and the properties of its 8-byte command frames, of its sensor
    decoders and of the connect / handshake / task / idle / close
    sequence of [run]. *)

From Stdlib Require Import ZArith List String Ascii Bool Lia.
From Stdlib Require Import Uint63 PrimFloat SpecFloat FloatOps.
From stdpp Require Import base list.
Import ListNotations.

Local Open Scope Z_scope.

(* Decimal literals such as 1.6 denote the nearest binary64 value, as they do
   in JavaScript. *)
#[local] Set Warnings "-inexact-float".

(** ** JavaScript numbers and the conversions the code relies on *)

Module JS.

(** A JavaScript Number is an IEEE 754 binary64 value. *)
Definition number := float.

(** The primitive values that flow through the driver. *)
Inductive value :=
| Undefined
| Bool (b : bool)
| Num (x : number).

(** An exact integer as a Number (exact below 2^53 in magnitude, which
    covers every integer the driver produces). *)
Definition of_Z (z : Z) : number :=
  match z with
  | Z0 => PrimFloat.zero
  | Zpos _ => PrimFloat.of_uint63 (Uint63.of_Z z)
  | Zneg p => PrimFloat.opp (PrimFloat.of_uint63 (Uint63.of_Z (Zpos p)))
  end.

(** ToNumber on primitive values. *)
Definition to_number (v : value) : number :=
  match v with
  | Undefined => PrimFloat.nan
  | Bool true => PrimFloat.one
  | Bool false => PrimFloat.zero
  | Num x => x
  end.

(** ToBoolean. *)
Definition truthy (v : value) : bool :=
  match v with
  | Undefined => false
  | Bool b => b
  | Num x => negb (PrimFloat.is_nan x || PrimFloat.is_zero x)
  end.

(** The integer part of a Number, rounding toward zero; NaN and the
    infinities give [None]. *)
Definition truncate (x : number) : option Z :=
  match Prim2SF x with
  | S754_zero _ => Some 0
  | S754_finite neg m e =>
      let mag := if 0 <=? e then Z.shiftl (Zpos m) e
                 else Z.shiftr (Zpos m) (- e) in
      Some (if neg then - mag else mag)
  | S754_infinity _ | S754_nan => None
  end.

(** ToUint8: truncate, then reduce modulo 2^8; NaN and infinities give 0. *)
Definition to_uint8 (v : value) : Z :=
  match truncate (to_number v) with
  | Some z => z mod 256
  | None => 0
  end.

(** ToInt32: truncate, reduce modulo 2^32 and read as a signed value. *)
Definition wrap_int32 (z : Z) : Z := (z + 2 ^ 31) mod 2 ^ 32 - 2 ^ 31.

Definition to_int32 (v : value) : Z :=
  match truncate (to_number v) with
  | Some z => wrap_int32 z
  | None => 0
  end.

(** [a & b] and [a >> n] on Numbers: both operands go through ToInt32 and
    the result is again an int32. *)
Definition bit_and (a b : value) : Z := Z.land (to_int32 a) (to_int32 b).
Definition shift_right (a : Z) (n : Z) : Z := Z.shiftr a (n mod 32).

(** [a === b] on primitive values. *)
Definition strict_eq (a b : value) : bool :=
  match a, b with
  | Undefined, Undefined => true
  | Bool p, Bool q => Bool.eqb p q
  | Num p, Num q => PrimFloat.eqb p q
  | _, _ => false
  end.

(** [a && b]: the left operand when it is falsy, the right one otherwise. *)
Definition logical_and (a b : value) : value := if truthy a then b else a.

End JS.

(** ** Typed arrays and plain arrays *)

(** A [Uint8Array]: a fixed-length sequence of integers in 0..255. *)
Abbreviation Uint8Array := (list Z) (only parsing).

Module U8.

(** [new Uint8Array(n)]: [n] zero bytes. *)
Definition make (n : nat) : Uint8Array := replicate n 0.

(** [arr[i] = v]: the value goes through ToNumber and ToUint8; a write
    past the end is ignored. *)
Definition store (arr : Uint8Array) (i : nat) (v : JS.value) : Uint8Array :=
  <[i := JS.to_uint8 v]> arr.

(** [arr[i]]: the element as a Number, [undefined] past the end. *)
Definition get (arr : Uint8Array) (i : nat) : JS.value :=
  match arr !! i with
  | Some b => JS.Num (JS.of_Z b)
  | None => JS.Undefined
  end.

(** [arr.slice(0, n)]: again a [Uint8Array]. *)
Definition slice0 (n : nat) (arr : Uint8Array) : Uint8Array := take n arr.

(** [arr.map(f)]: %TypedArray%.prototype.map allocates a typed array of
    the same kind and stores every callback result into it, so each result
    is converted like any other store. *)
Definition map (f : JS.value -> JS.value) (arr : Uint8Array) : Uint8Array :=
  List.map (fun b => JS.to_uint8 (f (JS.Num (JS.of_Z b)))) arr.

End U8.

(** [msg[i]] on a plain array: [undefined] past the end. *)
Definition array_get (msg : list JS.value) (i : nat) : JS.value :=
  match msg !! i with
  | Some v => v
  | None => JS.Undefined
  end.

(** [cmd.charCodeAt(0)]: NaN on the empty string. *)
Definition charCodeAt0 (cmd : string) : JS.value :=
  match cmd with
  | EmptyString => JS.Num PrimFloat.nan
  | String c _ => JS.Num (JS.of_Z (Z.of_nat (nat_of_ascii c)))
  end.

(** [for (; i < bound; i++) body], for a bound the body does not change:
    the loop runs [bound - i] times and leaves [i] at its exit value. *)
Fixpoint iterate_from {S : Type} (steps i : nat) (body : nat -> S -> S) (s : S)
  : nat * S :=
  match steps with
  | O => (i, s)
  | Datatypes.S k => iterate_from k (Datatypes.S i) body (body i s)
  end.

Definition for_lt {S : Type} (i bound : nat) (body : nat -> S -> S) (s : S)
  : nat * S :=
  iterate_from (bound - i) i body s.

(** The [arr] that [send] builds (finch.js, lines 34-40). *)
Definition send_frame (cmd : string) (msg : list JS.value) : Uint8Array :=
  let arr := U8.make 8 in
  let arr := U8.store arr 0 (charCodeAt0 cmd) in
  let '(i, arr) :=
    for_lt 0 (length msg + 1)
      (fun i arr => U8.store arr (i + 1) (array_get msg i)) arr in
  let '(_, arr) :=
    for_lt i (length arr)
      (fun i arr => U8.store arr i (JS.Num (JS.of_Z 0))) arr in
  arr.

(** ** The host: the HID device, the page's globals and the calls made *)

Definition handle := nat.

(** The calls the driver makes on its host, in program order. *)
Inductive call :=
| RequestDevice
| Open (h : handle)
| SendReport (h : handle) (reportId : Z) (data : Uint8Array)
| Close (h : handle)
| SetTimeout (ms : JS.number).

Record World := mkWorld {
  window_device : option handle;   (* window.device; None is undefined *)
  window_cmdId : JS.value;         (* window.cmdId *)
  opened : list handle;            (* the devices whose .opened is true *)
  granted : list handle;           (* what requestDevice resolves with *)
  locked : list handle;            (* the devices whose open() rejects *)
  inbox : list Uint8Array;         (* input reports still to be delivered *)
  trace : list call                (* the calls made so far *)
}.

Definition log (c : call) (w : World) : World :=
  mkWorld (window_device w) (window_cmdId w) (opened w) (granted w)
          (locked w) (inbox w) (trace w ++ [c]).

Definition set_device (d : option handle) (w : World) : World :=
  mkWorld d (window_cmdId w) (opened w) (granted w) (locked w) (inbox w)
          (trace w).

Definition set_cmdId (v : JS.value) (w : World) : World :=
  mkWorld (window_device w) v (opened w) (granted w) (locked w) (inbox w)
          (trace w).

Definition set_opened (l : list handle) (w : World) : World :=
  mkWorld (window_device w) (window_cmdId w) l (granted w) (locked w)
          (inbox w) (trace w).

Definition set_inbox (l : list Uint8Array) (w : World) : World :=
  mkWorld (window_device w) (window_cmdId w) (opened w) (granted w)
          (locked w) l (trace w).

Definition is_opened (h : handle) (w : World) : bool :=
  bool_decide (h ∈ opened w).

(** ** Promises: an awaited computation settles or stays pending *)

Inductive error :=
| TypeError                (* a property read on undefined *)
| HostError (name : string) (* a rejection raised by the HID host *)
| Thrown (what : string).    (* whatever a caller's task throws *)

Inductive outcome (A : Type) :=
| Fulfilled (a : A)
| Rejected (e : error)
| Pending.

Arguments Fulfilled {A} a.
Arguments Rejected {A} e.
Arguments Pending {A}.

Definition M (A : Type) := World -> outcome A * World.

Definition ret {A} (a : A) : M A := fun w => (Fulfilled a, w).

Definition throw {A} (e : error) : M A := fun w => (Rejected e, w).

(** [await m; k]: a rejection or a promise that never settles ends the
    enclosing async function there. *)
Definition bind {A B} (m : M A) (k : A -> M B) : M B :=
  fun w =>
    match m w with
    | (Fulfilled a, w') => k a w'
    | (Rejected e, w') => (Rejected e, w')
    | (Pending, w') => (Pending, w')
    end.

Declare Scope js_scope.
Delimit Scope js_scope with js.
Notation "x <- m ;; k" := (bind m (fun x => k))
  (at level 100, m at next level, right associativity) : js_scope.
Notation "m ;; k" := (bind m (fun _ => k))
  (at level 100, right associativity) : js_scope.
Local Open Scope js_scope.

(** ** Private API (finch.js, lines 33-53) *)

(** [window.device.sendReport(0, arr)]: the call is made and not awaited,
    so whatever the host answers is not observed by [send]; reading
    [sendReport] off an undefined [window.device] throws.  The
    [console.log] before it is diagnostic output and is left out. *)
Definition sendReport (reportId : Z) (arr : Uint8Array) : M unit :=
  fun w =>
    match window_device w with
    | None => (Rejected TypeError, w)
    | Some h => (Fulfilled tt, log (SendReport h reportId arr) w)
    end.

Definition send (cmd : string) (msg : list JS.value) : M unit :=
  sendReport 0 (send_frame cmd msg).

(** A call [send(cmd, msg, extra...)]: [send] declares two parameters, so
    further arguments are evaluated by the caller and bound to nothing. *)
Definition send_with_extra (cmd : string) (msg : list JS.value)
  (extra : list JS.value) : M unit :=
  send cmd msg.

(** [recv()]: registers a one-shot listener and resolves with the input
    report that fires it, as a [Uint8Array]; the promise stays pending
    when the device delivers none.  The head of [inbox] is the report
    that reaches this listener; the code keeps no buffer, and a report
    that arrives while nobody listens is not in [inbox] at all.  With no
    device the read of the global [device] fails; [send], which every
    caller awaits first, has failed before. *)
Definition recv : M Uint8Array :=
  fun w =>
    match window_device w with
    | None => (Rejected TypeError, w)
    | Some _ =>
        match inbox w with
        | [] => (Pending, w)
        | report :: rest => (Fulfilled report, set_inbox rest w)
        end
    end.

(** ** Public API (finch.js, lines 74-280) *)

(** [wait(sec)]: a timer of [sec * 1000] milliseconds; the promise
    resolves when it fires. *)
Definition wait (sec : JS.value) : M unit :=
  fun w =>
    (Fulfilled tt,
     log (SetTimeout (PrimFloat.mul (JS.to_number sec) 1000%float)) w).

Definition wheels (left right : JS.value) : M unit :=
  send "M" [JS.Num 0%float; left; JS.Num 0%float; right].

Definition buzz (sec freq : JS.value) : M unit :=
  let ms := JS.Num (PrimFloat.mul (JS.to_number sec) 1000%float) in
  send_with_extra "B"
    [JS.Num (JS.of_Z (JS.shift_right (JS.bit_and ms (JS.Num 0xFF00%float)) 8));
     JS.Num (JS.of_Z (JS.bit_and ms (JS.Num 0x00FF%float)));
     JS.Num (JS.of_Z (JS.shift_right (JS.bit_and freq (JS.Num 0xFF00%float)) 8))]
    [JS.logical_and freq (JS.Num 0xFF%float)] ;;
  wait sec.

Definition led (r g b : JS.value) : M unit :=
  send "O" [r; g; b].

Definition halt : M unit :=
  send "X" [JS.Num 0%float].

Definition get_obstacles : M Uint8Array :=
  send "I" [] ;;
  data <- recv ;;
  ret (U8.map (fun x => JS.Bool (JS.strict_eq x (JS.Num 1%float)))
         (U8.slice0 2 data)).

(** The object [get_acceleration] resolves with. *)
Record acceleration := mkAcceleration {
  x : JS.value;
  y : JS.value;
  z : JS.value;
  tap : bool;
  shake : bool
}.

Definition convAccel (a : JS.value) : JS.value :=
  let a := if PrimFloat.ltb 31%float (JS.to_number a)
           then JS.Num (PrimFloat.sub (JS.to_number a) 64%float)
           else a in
  JS.Num (PrimFloat.div (PrimFloat.mul (JS.to_number a) 1.6%float) 32.0%float).

Definition get_acceleration : M acceleration :=
  send "A" [] ;;
  data <- recv ;;
  let accel := U8.map convAccel (U8.slice0 3 data) in
  ret (mkAcceleration
         (U8.get accel 0) (U8.get accel 1) (U8.get accel 2)
         (negb (JS.bit_and (U8.get data 4) (JS.Num 0x20%float) =? 0))
         (negb (JS.bit_and (U8.get data 4) (JS.Num 0x80%float) =? 0))).

Definition get_temperature : M JS.value :=
  send "T" [] ;;
  data <- recv ;;
  ret (JS.Num (PrimFloat.add
                 (PrimFloat.div
                    (PrimFloat.sub (JS.to_number (U8.get data 0)) 127%float)
                    2.4%float)
                 25%float)).

Definition get_light : M Uint8Array :=
  send "L" [] ;;
  data <- recv ;;
  ret (U8.slice0 2 data).

(** ** The session of [run] (finch.js, lines 103-124) *)

(** [await navigator.hid.requestDevice({ filters: [] })], called in
    response to a user gesture: it resolves with the devices the user
    grants, possibly none. *)
Definition requestDevice : M (list handle) :=
  fun w => (Fulfilled (granted w), log RequestDevice w).

(** [device.opened], [device.open()] and [device.close()] on the global
    [device], which is [window.device]. *)
Definition device_opened : M bool :=
  fun w =>
    match window_device w with
    | None => (Rejected TypeError, w)
    | Some h => (Fulfilled (is_opened h w), w)
    end.

Definition device_open : M unit :=
  fun w =>
    match window_device w with
    | None => (Rejected TypeError, w)
    | Some h =>
        if bool_decide (h ∈ locked w)
        then (Rejected (HostError "NotAllowedError"), log (Open h) w)
        else (Fulfilled tt, set_opened (h :: opened w) (log (Open h) w))
    end.

Definition device_close : M unit :=
  fun w =>
    match window_device w with
    | None => (Rejected TypeError, w)
    | Some h =>
        (Fulfilled tt,
         set_opened (filter (fun h' => h' ≠ h) (opened w)) (log (Close h) w))
    end.

(** Lines 106-110: get device permissions and connect. *)
Definition connect : M unit :=
  (fun w =>
     match window_device w with
     | None =>
         (devices <- requestDevice ;;
          fun w' => (Fulfilled tt, set_device (head devices) w')) w
     | Some _ => (Fulfilled tt, w)
     end) ;;
  is_open <- device_opened ;;
  if is_open then ret tt else device_open.

(** Lines 113-115: ask for the command id and keep it in [window.cmdId]. *)
Definition handshake : M unit :=
  send "z" [] ;;
  report <- recv ;;
  let data : Uint8Array := report in
  fun w => (Fulfilled tt, set_cmdId (U8.get data 0) w).

(** Lines 121-122: put in idle mode and close the connection. *)
Definition teardown : M unit :=
  send "R" [JS.Num 0%float] ;;
  device_close.

(** The body of the async function that [run] starts. *)
Definition run_body (prog : M unit) : M unit :=
  connect ;;
  handshake ;;
  prog ;;
  teardown.

(** [run(prog)] starts the body and drops its promise: what is left is the
    world the body leaves behind, however it ends. *)
Definition run (prog : M unit) (w : World) : World := snd (run_body prog w).

(** * The vocabulary of the statements *)

(** The body of a loop that stores [f i] into cell [g i]. *)
Definition store_at (f : nat -> JS.value) (g : nat -> nat) (i : nat)
  (arr : Uint8Array) : Uint8Array :=
  U8.store arr (g i) (f i).

(** The values a cell of a [Uint8Array] can hold. *)
Definition is_byte (b : Z) : Prop := 0 <= b < 256.

(** The integers [0 .. n-1]. *)
Definition bytes_upto (n : nat) : list Z := Z.of_nat <$> seq 0 n.

(** A parameter list given as bytes: the array of the Numbers they are. *)
Definition params (bs : list Z) : list JS.value :=
  (fun b => JS.Num (JS.of_Z b)) <$> bs.

(** The character code of a one-character command identifier. *)
Definition char_code (c : ascii) : Z := Z.of_nat (nat_of_ascii c).

(** The world after a call recorded on the host. *)
Definition sends (h : handle) (frame : list Z) (w : World) : World :=
  log (SendReport h 0 frame) w.

(** A page whose [window.device], when set, is an open device, and on which
    the given input reports are still to come. *)
Definition page (dev : option handle) (reports : list (list Z)) : World :=
  mkWorld dev JS.Undefined (from_option (fun h => [h]) [] dev) [] [] reports [].

(** A computation is rejected before any I/O when it ends in an error and
    has made no call on the host. *)
Definition rejected_before_io {A : Type} (m : M A) (w : World) : Prop :=
  (exists e : error, fst (m w) = Rejected e) /\ trace (snd (m w)) = trace w.

(** The Celsius value of a raw temperature byte, as line 264 computes it. *)
Definition celsius (raw : JS.value) : JS.number :=
  PrimFloat.add
    (PrimFloat.div (PrimFloat.sub (JS.to_number raw) 127%float) 2.4%float)
    25%float.

(** A computation raises when its promise is rejected. *)
Definition raises {A : Type} (m : M A) (w : World) : Prop :=
  exists e : error, fst (m w) = Rejected e.

(** A raw axis byte in gravities: [a - 64] when [a > 31], [a] otherwise,
    scaled by 1.6/32. *)
Definition gravities (a : Z) : JS.number :=
  PrimFloat.mul (JS.of_Z (if a >? 31 then a - 64 else a))
    (PrimFloat.div 1.6%float 32.0%float).

(** The calls a computation adds to the trace of the world it starts in. *)
Definition calls_made {A : Type} (m : M A) (w : World) : list call :=
  drop (length (trace w)) (trace (snd (m w))).

(** The frame of the idle command, ['R'] with the parameter [0]. *)
Definition idle_frame : list Z := [82; 0; 0; 0; 0; 0; 0; 0].

(** The two calls of the teardown: an idle send and a [close()]. *)
Definition is_teardown_call (c : call) : bool :=
  match c with
  | SendReport _ _ data => bool_decide (data = idle_frame)
  | Close _ => true
  | _ => false
  end.

(** The world after [device.close()] on [h]. *)
Definition closes (h : handle) (w : World) : World :=
  set_opened (filter (fun h' => h' ≠ h) (opened w)) (log (Close h) w).

(** The session of [run] performs the teardown when, among the calls it
    adds to the trace, the teardown calls are exactly one idle send
    followed by one [close()]. *)
Definition performs_teardown (prog : M unit) (w : World) : Prop :=
  exists h : handle,
    List.filter is_teardown_call
      (drop (length (trace w)) (trace (run prog w))) =
    [SendReport h 0 idle_frame; Close h].

(** A page that holds no device yet, on which the user grants device 0,
    which answers the handshake with one report. *)
Definition fresh_page : World :=
  mkWorld None JS.Undefined [] [0%nat] [] [[7; 0; 0; 0; 0; 0; 0; 0]] [].

(** The task of the example in the documentation of [run]. *)
Definition example_task : M unit :=
  wheels (JS.Num 255%float) (JS.Num 255%float) ;;
  wait (JS.Num 1%float).

(** A task that starts the wheels and then throws. *)
Definition failing_task : M unit :=
  wheels (JS.Num 255%float) (JS.Num 255%float) ;;
  throw (Thrown "boom").

(** The integers [lo .. lo + n - 1]. *)
Definition ints_from (lo : Z) (n : nat) : list Z :=
  (fun k : nat => lo + Z.of_nat k) <$> seq 0 n.

(** The frame of the identification command, ['z'] with no parameter. *)
Definition identify_frame : list Z := [122; 0; 0; 0; 0; 0; 0; 0].

(** An integer as a Number value. *)
Definition int (n : Z) : JS.value := JS.Num (JS.of_Z n).

(** The numeric content of a value that is a Number, NaN otherwise. *)
Definition number_of (v : JS.value) : JS.number :=
  match v with
  | JS.Num x => x
  | _ => PrimFloat.nan
  end.

(** What a typed array keeps of the gravities of a 6-bit reading: 1 from
    +1 G up, 255 from -1 G down, 0 in between. *)
Definition axis_stored (raw : Z) : Z :=
  if (20 <=? raw) && (raw <=? 31) then 1
  else if (32 <=? raw) && (raw <=? 44) then 255
  else 0.

(** The 0/1 number kept for an obstacle byte. *)
Definition obstacle_stored (b : Z) : Z := if b =? 1 then 1 else 0.

(** * Properties *)

(** ** Conversions on bytes *)

Lemma elem_of_bytes_upto (b : Z) : is_byte b -> b ∈ bytes_upto 256.
Proof.
  unfold is_byte, bytes_upto. intros Hb.
  apply list_elem_of_fmap. exists (Z.to_nat b). split; [lia|].
  apply elem_of_seq. lia.
Qed.

(** A decidable property checked on the 256 bytes holds of every byte. *)
Lemma for_all_bytes (p : Z -> bool) :
  forallb p (bytes_upto 256) = true -> forall b, is_byte b -> p b = true.
Proof.
  intros Hall b Hb.
  rewrite forallb_forall in Hall. apply Hall.
  apply list_elem_of_In, elem_of_bytes_upto, Hb.
Qed.

(** A byte stored into a typed array reads back unchanged. *)
Lemma to_uint8_of_byte (b : Z) :
  is_byte b -> JS.to_uint8 (JS.Num (JS.of_Z b)) = b.
Proof.
  intros Hb. apply Z.eqb_eq.
  apply (for_all_bytes (fun b => JS.to_uint8 (JS.Num (JS.of_Z b)) =? b));
    [vm_compute; reflexivity | exact Hb].
Qed.

Lemma to_int32_of_byte (b : Z) :
  is_byte b -> JS.to_int32 (JS.Num (JS.of_Z b)) = b.
Proof.
  intros Hb. apply Z.eqb_eq.
  apply (for_all_bytes (fun b => JS.to_int32 (JS.Num (JS.of_Z b)) =? b));
    [vm_compute; reflexivity | exact Hb].
Qed.

(** ** The two loops of [send] *)

Lemma iterate_from_fst {S : Type} (body : nat -> S -> S) (steps : nat) :
  forall (i : nat) (s : S), fst (iterate_from steps i body s) = (i + steps)%nat.
Proof.
  induction steps as [|k IH]; intros i s; simpl.
  - lia.
  - rewrite IH. lia.
Qed.

Section StoreLoop.
Variable f : nat -> JS.value.
Variable g : nat -> nat.
Variable off : nat.
Hypothesis g_shift : forall i : nat, g i = (i + off)%nat.

Lemma store_loop_length (steps : nat) :
  forall (i : nat) (arr : Uint8Array),
    length (snd (iterate_from steps i (store_at f g) arr)) = length arr.
Proof.
  induction steps as [|k IH]; intros i arr; simpl; [reflexivity|].
  rewrite IH. unfold store_at, U8.store. apply length_insert.
Qed.

(** After the loop, the cells [i + off .. i + off + steps - 1] that exist
    hold the converted values and every other cell is untouched. *)
Lemma store_loop_lookup (steps : nat) :
  forall (i : nat) (arr : Uint8Array) (j : nat),
    snd (iterate_from steps i (store_at f g) arr) !! j =
    if decide ((i + off <= j < i + off + steps)%nat /\ (j < length arr)%nat)
    then Some (JS.to_uint8 (f (j - off)))
    else arr !! j.
Proof.
  induction steps as [|k IH]; intros i arr j; simpl.
  - destruct (decide _) as [[? ?]|]; [lia | reflexivity].
  - rewrite IH. unfold store_at, U8.store.
    rewrite length_insert, g_shift.
    destruct (decide (j = (i + off)%nat)) as [->|Hne].
    + replace (i + off - off)%nat with i by lia.
      destruct (decide (i + off < length arr)%nat) as [Hin|Hout].
      * rewrite list_lookup_insert_eq by assumption.
        repeat case_decide; try lia; reflexivity.
      * rewrite list_insert_ge by lia.
        repeat case_decide; try lia; reflexivity.
    + rewrite list_lookup_insert_ne by lia.
      repeat case_decide; try lia; reflexivity.
Qed.
End StoreLoop.

(** ** The frame that [send] builds *)

(** Cell by cell: the command code, then the parameters that fit, then
    zeros. *)
Lemma send_frame_lookup (cmd : string) (msg : list JS.value) (j : nat) :
  send_frame cmd msg !! j =
  if decide (j = 0%nat) then Some (JS.to_uint8 (charCodeAt0 cmd))
  else if decide (j <= length msg /\ j < 8)%nat
       then Some (JS.to_uint8 (array_get msg (j - 1)))
       else if decide (j < 8)%nat then Some 0 else None.
Proof.
  unfold send_frame, for_lt.
  set (arr0 := U8.store (U8.make 8) 0 (charCodeAt0 cmd)).
  set (body1 := fun (i : nat) (arr : list Z) =>
                  U8.store arr (i + 1) (array_get msg i)).
  set (body2 := fun (i : nat) (arr : list Z) =>
                  U8.store arr i (JS.Num (JS.of_Z 0))).
  pose proof (iterate_from_fst body1 (length msg + 1 - 0) 0 arr0) as Hi.
  pose proof (store_loop_length (array_get msg) (fun i => (i + 1)%nat)
                (length msg + 1 - 0) 0 arr0) as Hlen1.
  pose proof (store_loop_lookup (array_get msg) (fun i => (i + 1)%nat) 1
                (fun i => eq_refl) (length msg + 1 - 0) 0 arr0) as Hget1.
  unfold store_at in Hlen1, Hget1. fold body1 in Hlen1, Hget1.
  destruct (iterate_from (length msg + 1 - 0) 0 body1 arr0) as [i arr1].
  simpl in Hi, Hlen1, Hget1.
  pose proof (store_loop_lookup (fun _ => JS.Num (JS.of_Z 0)) (fun i => i) 0
                (fun i => eq_sym (Nat.add_0_r i)) (length arr1 - i) i arr1 j)
    as Hget2.
  unfold store_at in Hget2. fold body2 in Hget2.
  destruct (iterate_from (length arr1 - i) i body2 arr1) as [i2 arr2].
  simpl in Hget2. rewrite Hget2, Hget1, Hlen1. subst i.
  clear Hget1 Hget2.
  assert (Hz : JS.to_uint8 (JS.Num PrimFloat.zero) = 0) by reflexivity.
  rewrite Hz. clear Hz.
  repeat case_decide; subst; try lia; try reflexivity.
  apply lookup_ge_None_2. change (length arr0) with 8%nat. lia.
Qed.

(** In closed form: the frame is the command code and the converted
    parameters, padded with zeros and cut to 8 bytes. *)
Lemma send_frame_closed (cmd : string) (msg : list JS.value) :
  send_frame cmd msg =
  take 8 (JS.to_uint8 (charCodeAt0 cmd) :: (JS.to_uint8 <$> msg) ++ replicate 7 0).
Proof.
  apply list_eq. intros j. rewrite send_frame_lookup.
  destruct (decide (j < 8)%nat) as [Hj|Hj].
  - rewrite lookup_take_lt by assumption.
    destruct j as [|j]; [reflexivity|].
    rewrite lookup_cons_ne_0 by lia.
    replace (S j - 1)%nat with j by lia.
    replace (Nat.pred (S j)) with j by lia.
    destruct (decide (j < length msg)%nat) as [Hm|Hm].
    + rewrite lookup_app_l by (rewrite length_fmap; assumption).
      rewrite list_lookup_fmap. unfold array_get.
      destruct (lookup_lt_is_Some_2 msg j Hm) as [v Hv]. rewrite Hv.
      repeat case_decide; try lia; reflexivity.
    + rewrite lookup_app_r by (rewrite length_fmap; lia).
      rewrite lookup_replicate_2 by (rewrite length_fmap; lia).
      repeat case_decide; try lia; reflexivity.
  - rewrite lookup_take_ge by lia.
    repeat case_decide; try lia; reflexivity.
Qed.

Lemma send_frame_length (cmd : string) (msg : list JS.value) :
  length (send_frame cmd msg) = 8%nat.
Proof.
  rewrite send_frame_closed, length_take, length_cons, length_app,
    length_replicate. lia.
Qed.

Lemma to_uint8_params (bs : list Z) :
  Forall is_byte bs -> JS.to_uint8 <$> params bs = bs.
Proof.
  unfold params. induction 1 as [|b bs Hb _ IH]; simpl; [reflexivity|].
  rewrite to_uint8_of_byte by assumption. f_equal. exact IH.
Qed.

Lemma char_code_byte (c : ascii) : is_byte (char_code c).
Proof.
  unfold is_byte, char_code. pose proof (nat_ascii_bounded c). lia.
Qed.

Lemma to_uint8_charCodeAt0 (c : ascii) (rest : string) :
  JS.to_uint8 (charCodeAt0 (String c rest)) = char_code c.
Proof. apply to_uint8_of_byte, char_code_byte. Qed.

(** ** Frame codec *)

(** C2. For a command identifier [c] and byte parameters [bs] with at
    most seven of them, the frame that [send] builds has exactly 8 bytes:
    byte 0 is the character code of the identifier, bytes 1..len(bs) are
    the parameters in order, and every byte from index len(bs)+1 to 7 is
    zero. *)
Theorem send_frame_layout (c : ascii) (rest : string) (bs : list Z) :
  Forall is_byte bs ->
  (length bs <= 7)%nat ->
  let arr := send_frame (String c rest) (params bs) in
  length arr = 8%nat /\
  arr !! 0%nat = Some (char_code c) /\
  (forall i : nat, (i < length bs)%nat -> arr !! (i + 1)%nat = bs !! i) /\
  (forall j : nat, (length bs + 1 <= j <= 7)%nat -> arr !! j = Some 0) /\
  arr = char_code c :: bs ++ replicate (7 - length bs) 0.
Proof.
  intros Hbs Hlen arr.
  assert (Harr : arr = char_code c :: bs ++ replicate (7 - length bs) 0).
  { unfold arr. rewrite send_frame_closed, to_uint8_charCodeAt0.
    rewrite to_uint8_params by assumption.
    change 8%nat with (S 7) at 1. rewrite firstn_cons. f_equal.
    rewrite take_app_ge by lia. f_equal.
    rewrite take_replicate. f_equal. lia. }
  split; [apply send_frame_length|].
  split; [rewrite Harr; reflexivity|].
  split; [|split; [|exact Harr]].
  - intros i Hi. rewrite Harr.
    replace (i + 1)%nat with (S i) by lia.
    rewrite lookup_cons_ne_0 by lia. simpl.
    rewrite lookup_app_l by assumption. reflexivity.
  - intros j Hj. rewrite Harr.
    rewrite lookup_cons_ne_0 by lia.
    rewrite lookup_app_r by lia.
    apply lookup_replicate_2. lia.
Qed.

Lemma send_frame_layout_witness :
  let arr := send_frame "M" (params [0; 255; 0; 128]) in
  length arr = 8%nat /\
  arr !! 0%nat = Some 77 /\
  (forall i : nat, (i < 4)%nat -> arr !! (i + 1)%nat = [0; 255; 0; 128] !! i) /\
  (forall j : nat, (4 + 1 <= j <= 7)%nat -> arr !! j = Some 0) /\
  arr = [77; 0; 255; 0; 128; 0; 0; 0].
Proof.
  apply (send_frame_layout "M" "" [0; 255; 0; 128]).
  - repeat constructor; unfold is_byte; lia.
  - simpl. lia.
Defined.

(** C3, as the code has it. [send] has no argument check: with more than
    seven byte parameters it still fulfils and still hands one frame to
    the device, the command code followed by the first seven parameters. *)
Theorem send_truncates_long_params (c : ascii) (rest : string) (bs : list Z)
    (w : World) (h : handle) :
  Forall is_byte bs ->
  (length bs > 7)%nat ->
  window_device w = Some h ->
  send (String c rest) (params bs) w =
  (Fulfilled tt, sends h (char_code c :: take 7 bs) w).
Proof.
  intros Hbs Hlen Hdev. unfold send, sendReport, sends. rewrite Hdev.
  rewrite send_frame_closed, to_uint8_charCodeAt0.
  rewrite to_uint8_params by assumption.
  change 8%nat with (S 7) at 1. rewrite firstn_cons.
  rewrite take_app_le by lia. reflexivity.
Qed.

Lemma send_truncates_long_params_witness :
  send "M" (params [1; 2; 3; 4; 5; 6; 7; 8]) (page (Some 0%nat) []) =
  (Fulfilled tt, sends 0%nat [77; 1; 2; 3; 4; 5; 6; 7] (page (Some 0%nat) [])).
Proof.
  apply (send_truncates_long_params "M" "" [1; 2; 3; 4; 5; 6; 7; 8]).
  - repeat constructor; unfold is_byte; lia.
  - simpl. lia.
  - reflexivity.
Defined.

(** C3 as stated fails: eight parameters are not rejected, and a frame is
    sent to the device. *)
Lemma send_long_params_not_rejected :
  ~ rejected_before_io (send "M" (params [1; 2; 3; 4; 5; 6; 7; 8]))
      (page (Some 0%nat) []).
Proof.
  intros [[e He] _]. vm_compute in He. discriminate He.
Qed.

(** ** The buzzer *)

Lemma to_int32_0xFF00 : JS.to_int32 (JS.Num 0xFF00%float) = 65280.
Proof. reflexivity. Qed.

Lemma to_int32_0x00FF : JS.to_int32 (JS.Num 0x00FF%float) = 255.
Proof. reflexivity. Qed.

(** [(v & 0xFF00) >> 8] is bits 8..15 of [v]. *)
Lemma high_byte_bits (v : Z) :
  JS.shift_right (Z.land v 65280) 8 = (v / 256) mod 256.
Proof.
  unfold JS.shift_right. change (8 mod 32) with 8.
  rewrite Z.shiftr_land. change (Z.shiftr 65280 8) with (Z.ones 8).
  rewrite Z.land_ones by lia. rewrite Z.shiftr_div_pow2 by lia.
  reflexivity.
Qed.

(** [v & 0x00FF] is bits 0..7 of [v]. *)
Lemma low_byte_bits (v : Z) : Z.land v 255 = v mod 256.
Proof. change 255 with (Z.ones 8). rewrite Z.land_ones by lia. reflexivity. Qed.

Lemma big_endian_16 (v : Z) :
  256 * ((v / 256) mod 256) + v mod 256 = v mod 65536.
Proof.
  change 65536 with (256 * 256).
  rewrite (Z.rem_mul_r v 256 256) by lia. lia.
Qed.

(** ToInt32 keeps the low 16 bits of an integer. *)
Lemma wrap_int32_low_16 (t : Z) : JS.wrap_int32 t mod 65536 = t mod 65536.
Proof.
  unfold JS.wrap_int32.
  rewrite (Z.mod_eq (t + 2 ^ 31) (2 ^ 32)) by lia.
  replace (t + 2 ^ 31 - 2 ^ 32 * ((t + 2 ^ 31) / 2 ^ 32) - 2 ^ 31)
    with (t + (- (65536 * ((t + 2 ^ 31) / 2 ^ 32))) * 65536) by lia.
  apply Z.mod_add. lia.
Qed.

Lemma mod_256_byte (v : Z) : is_byte (v mod 256).
Proof. unfold is_byte. pose proof (Z.mod_pos_bound v 256). lia. Qed.

(** What [buzz] hands to the host, for any arguments. *)
Lemma buzz_run (sec freq : JS.value) (w : World) (h : handle) :
  window_device w = Some h ->
  let ms := PrimFloat.mul (JS.to_number sec) 1000%float in
  buzz sec freq w =
  (Fulfilled tt,
   log (SetTimeout ms)
     (sends h [66; (JS.to_int32 (JS.Num ms) / 256) mod 256;
               JS.to_int32 (JS.Num ms) mod 256;
               (JS.to_int32 freq / 256) mod 256; 0; 0; 0; 0] w)).
Proof.
  intros Hdev ms.
  unfold buzz, send_with_extra, send, sendReport, wait, bind. rewrite Hdev.
  rewrite send_frame_closed. fold ms.
  unfold JS.bit_and. rewrite to_int32_0xFF00, to_int32_0x00FF.
  rewrite !high_byte_bits, low_byte_bits.
  cbn [fmap list_fmap].
  rewrite !to_uint8_of_byte by apply mod_256_byte.
  reflexivity.
Qed.

(** C4. For [buzz(sec, freq)] with [sec >= 0] and [freq >= 0], the 'B'
    frame carries [(sec*1000 & 0xFF00) >> 8] and [sec*1000 & 0x00FF] as
    its first two parameter bytes, which are the millisecond count as a
    big-endian 16-bit value, and [(freq & 0xFF00) >> 8], the high byte of
    the frequency, as its third; after the send the caller is held by a
    timer of [sec] seconds ([sec * 1000] ms) before [buzz] resolves. *)
Theorem buzz_frame_and_wait (sec freq : JS.number) (w : World) (h : handle) :
  PrimFloat.leb 0%float sec = true ->
  PrimFloat.leb 0%float freq = true ->
  window_device w = Some h ->
  let ms := JS.Num (PrimFloat.mul sec 1000%float) in
  let hi := JS.shift_right (JS.bit_and ms (JS.Num 0xFF00%float)) 8 in
  let lo := JS.bit_and ms (JS.Num 0x00FF%float) in
  let fhi := JS.shift_right (JS.bit_and (JS.Num freq) (JS.Num 0xFF00%float)) 8 in
  buzz (JS.Num sec) (JS.Num freq) w =
  (Fulfilled tt,
   log (SetTimeout (PrimFloat.mul sec 1000%float))
     (sends h [66; hi; lo; fhi; 0; 0; 0; 0] w)) /\
  is_byte hi /\ is_byte lo /\ is_byte fhi /\
  256 * hi + lo = JS.to_int32 ms mod 65536 /\
  (forall t : Z,
     JS.truncate (PrimFloat.mul sec 1000%float) = Some t ->
     256 * hi + lo = t mod 65536) /\
  fhi = (JS.to_int32 (JS.Num freq) / 256) mod 256.
Proof.
  intros _ _ Hdev ms hi lo fhi.
  assert (Hhi : hi = (JS.to_int32 ms / 256) mod 256).
  { unfold hi, JS.bit_and. rewrite to_int32_0xFF00. apply high_byte_bits. }
  assert (Hlo : lo = JS.to_int32 ms mod 256).
  { unfold lo, JS.bit_and. rewrite to_int32_0x00FF. apply low_byte_bits. }
  assert (Hfhi : fhi = (JS.to_int32 (JS.Num freq) / 256) mod 256).
  { unfold fhi, JS.bit_and. rewrite to_int32_0xFF00. apply high_byte_bits. }
  rewrite Hhi, Hlo, Hfhi.
  split; [exact (buzz_run (JS.Num sec) (JS.Num freq) w h Hdev)|].
  repeat split; try apply mod_256_byte.
  - apply big_endian_16.
  - intros t Ht. rewrite big_endian_16.
    unfold JS.to_int32, ms, JS.to_number. rewrite Ht.
    apply wrap_int32_low_16.
Qed.

Lemma buzz_frame_and_wait_witness :
  buzz (JS.Num 1%float) (JS.Num 440%float) (page (Some 0%nat) []) =
  (Fulfilled tt,
   log (SetTimeout 1000%float)
     (sends 0%nat [66; 3; 232; 1; 0; 0; 0; 0] (page (Some 0%nat) []))) /\
  is_byte 3 /\ is_byte 232 /\ is_byte 1 /\
  256 * 3 + 232 = 1000 mod 65536 /\
  (forall t : Z, Some 1000 = Some t -> 256 * 3 + 232 = t mod 65536) /\
  1 = (440 / 256) mod 256.
Proof.
  apply (buzz_frame_and_wait 1%float 440%float (page (Some 0%nat) []) 0%nat);
    reflexivity.
Defined.

(** C5. The low byte of [freq] is never transmitted: the 'B' frame holds
    three parameter bytes (duration high, duration low, frequency high
    byte) and zeros, the value of [freq && 0xFF] being a further argument
    that [send] binds to nothing; two frequencies that differ only in
    their low byte give the same frame, and for every [freq] in 0..255
    the frequency byte sent is 0. *)
Theorem buzz_drops_low_frequency_byte (sec freq : JS.value) (w : World)
    (h : handle) :
  window_device w = Some h ->
  (forall (cmd : string) (msg extra : list JS.value),
     send_with_extra cmd msg extra = send cmd msg) /\
  (exists hi lo : Z,
     buzz sec freq w =
     (Fulfilled tt,
      log (SetTimeout (PrimFloat.mul (JS.to_number sec) 1000%float))
        (sends h [66; hi; lo; (JS.to_int32 freq / 256) mod 256; 0; 0; 0; 0] w))) /\
  (forall freq' : JS.value,
     JS.to_int32 freq' / 256 = JS.to_int32 freq / 256 ->
     buzz sec freq' w = buzz sec freq w) /\
  (forall n : Z, 0 <= n <= 255 ->
     exists hi lo : Z,
       buzz sec (JS.Num (JS.of_Z n)) w =
       (Fulfilled tt,
        log (SetTimeout (PrimFloat.mul (JS.to_number sec) 1000%float))
          (sends h [66; hi; lo; 0; 0; 0; 0; 0] w))).
Proof.
  intros Hdev. split; [reflexivity|]. split; [|split].
  - eexists _, _. apply (buzz_run sec freq w h Hdev).
  - intros freq' Hsame.
    rewrite (buzz_run sec freq' w h Hdev), (buzz_run sec freq w h Hdev).
    cbv zeta. rewrite Hsame. reflexivity.
  - intros n Hn. eexists _, _.
    rewrite (buzz_run sec (JS.Num (JS.of_Z n)) w h Hdev). cbv zeta.
    rewrite to_int32_of_byte by (unfold is_byte; lia).
    rewrite (Z.div_small n 256) by lia. reflexivity.
Qed.

Lemma buzz_drops_low_frequency_byte_witness :
  buzz (JS.Num 1%float) (JS.Num 440%float) (page (Some 0%nat) []) =
  buzz (JS.Num 1%float) (JS.Num 256%float) (page (Some 0%nat) []).
Proof.
  apply (buzz_drops_low_frequency_byte (JS.Num 1%float) (JS.Num 256%float)
           (page (Some 0%nat) []) 0%nat eq_refl).
  reflexivity.
Defined.

(** ** Sensor queries *)

(** A query sends its command with no parameter, takes the next input
    report and decodes it. *)
Lemma query_run {A : Type} (cmd : string) (decode : list Z -> A) (w : World)
    (h : handle) (data : list Z) (rest : list (list Z)) :
  window_device w = Some h ->
  inbox w = data :: rest ->
  (send cmd [] ;; data <- recv ;; ret (decode data)) w =
  (Fulfilled (decode data), set_inbox rest (sends h (send_frame cmd []) w)).
Proof.
  intros Hdev Hin. unfold bind, send, sendReport, recv, ret, sends.
  rewrite Hdev. simpl. rewrite Hdev, Hin. reflexivity.
Qed.

(** C8. For a response frame whose first byte is [b], [get_temperature]
    resolves with [(b - 127) / 2.4 + 25]; raw 127 gives exactly 25.0 and
    raw 0 gives [25 - 127/2.4]. *)
Theorem get_temperature_formula (w : World) (h : handle) (b : Z)
    (data : list Z) (rest : list (list Z)) :
  window_device w = Some h ->
  inbox w = (b :: data) :: rest ->
  get_temperature w =
  (Fulfilled
     (JS.Num (PrimFloat.add
                (PrimFloat.div (PrimFloat.sub (JS.of_Z b) 127%float) 2.4%float)
                25%float)),
   set_inbox rest (sends h [84; 0; 0; 0; 0; 0; 0; 0] w)) /\
  celsius (JS.Num (JS.of_Z 127)) = 25.0%float /\
  celsius (JS.Num (JS.of_Z 0)) =
  PrimFloat.sub 25%float (PrimFloat.div 127%float 2.4%float).
Proof.
  intros Hdev Hin. split; [|split; reflexivity].
  unfold get_temperature.
  rewrite (query_run "T" _ w h (b :: data) rest Hdev Hin). reflexivity.
Qed.

Lemma get_temperature_formula_witness :
  get_temperature (page (Some 0%nat) [[127; 0; 0; 0; 0; 0; 0; 0]]) =
  (Fulfilled (JS.Num 25%float),
   set_inbox [] (sends 0%nat [84; 0; 0; 0; 0; 0; 0; 0]
                   (page (Some 0%nat) [[127; 0; 0; 0; 0; 0; 0; 0]]))) /\
  celsius (JS.Num (JS.of_Z 127)) = 25.0%float /\
  celsius (JS.Num (JS.of_Z 0)) =
  PrimFloat.sub 25%float (PrimFloat.div 127%float 2.4%float).
Proof.
  apply (get_temperature_formula (page (Some 0%nat) [[127; 0; 0; 0; 0; 0; 0; 0]])
           0%nat 127 [0; 0; 0; 0; 0; 0; 0] []); reflexivity.
Defined.

(** C6, as the code has it. No sensor read checks the size of the
    response: whatever its length, each read resolves with a value decoded
    from the bytes that are present, a missing byte reading as
    [undefined]; none raises. *)
Theorem sensor_reads_accept_any_size (w : World) (h : handle) (data : list Z)
    (rest : list (list Z)) :
  window_device w = Some h ->
  inbox w = data :: rest ->
  fst (get_temperature w) = Fulfilled (JS.Num (celsius (U8.get data 0))) /\
  fst (get_light w) = Fulfilled (take 2 data) /\
  fst (get_obstacles w) =
    Fulfilled (U8.map (fun v => JS.Bool (JS.strict_eq v (JS.Num 1%float)))
                 (take 2 data)) /\
  (exists a : acceleration, fst (get_acceleration w) = Fulfilled a) /\
  ~ raises get_temperature w /\ ~ raises get_light w /\
  ~ raises get_obstacles w /\ ~ raises get_acceleration w.
Proof.
  intros Hdev Hin.
  unfold raises, get_temperature, get_light, get_obstacles, get_acceleration.
  rewrite !(query_run _ _ w h data rest Hdev Hin). simpl.
  repeat split; try reflexivity; try (eexists; reflexivity);
    intros [e He]; discriminate He.
Qed.

Lemma sensor_reads_accept_any_size_witness :
  fst (get_temperature (page (Some 0%nat) [[]])) = Fulfilled (JS.Num PrimFloat.nan).
Proof.
  apply (sensor_reads_accept_any_size (page (Some 0%nat) [[]]) 0%nat [] []);
    reflexivity.
Defined.

(** C6 as stated fails: on an empty response, shorter than the byte the
    decoder reads, [get_temperature] raises nothing and resolves with a
    decoded value, NaN. *)
Lemma short_response_not_raised :
  ~ raises get_temperature (page (Some 0%nat) [[]]) /\
  fst (get_temperature (page (Some 0%nat) [[]])) = Fulfilled (JS.Num PrimFloat.nan).
Proof.
  split; [|reflexivity].
  intros [e He]. vm_compute in He. discriminate He.
Qed.

(** ** Results written back into a typed array *)

(** The obstacle callback [x => x === 1] yields a boolean, and the typed
    array it is stored into keeps it as the number 1 or 0. *)
Lemma obstacle_flag_stored (b : Z) :
  is_byte b ->
  JS.to_uint8 (JS.Bool (JS.strict_eq (JS.Num (JS.of_Z b)) (JS.Num 1%float))) =
  if b =? 1 then 1 else 0.
Proof.
  intros Hb. apply Z.eqb_eq.
  apply (for_all_bytes
           (fun b => JS.to_uint8
                       (JS.Bool (JS.strict_eq (JS.Num (JS.of_Z b)) (JS.Num 1%float)))
                     =? (if b =? 1 then 1 else 0)));
    [vm_compute; reflexivity | exact Hb].
Qed.

(** For any response, [get_obstacles] resolves with a [Uint8Array] of at
    most two numbers, 1 where the byte is 1 and 0 elsewhere. *)
Lemma get_obstacles_run (w : World) (h : handle) (data : list Z)
    (rest : list (list Z)) :
  window_device w = Some h ->
  inbox w = data :: rest ->
  Forall is_byte data ->
  get_obstacles w =
  (Fulfilled ((fun b => if b =? 1 then 1 else 0) <$> take 2 data),
   set_inbox rest (sends h [73; 0; 0; 0; 0; 0; 0; 0] w)).
Proof.
  intros Hdev Hin Hbytes. unfold get_obstacles.
  rewrite (query_run "I" _ w h data rest Hdev Hin).
  f_equal. f_equal. unfold U8.map, U8.slice0.
  apply (Forall_take is_byte 2%nat) in Hbytes.
  induction Hbytes as [|b bs Hb _ IH]; [reflexivity|].
  cbn [List.map fmap list_fmap]. rewrite obstacle_flag_stored by assumption.
  f_equal. exact IH.
Qed.

(** C9, on the code. For the response [1, 0, ...] the spec expects the
    boolean pair [(true, false)]; [get_obstacles] resolves with the
    [Uint8Array] [1, 0], whose elements read back as the numbers 1 and 0
    and are not booleans. *)
Theorem get_obstacles_resolves_with_numbers :
  let w := page (Some 0%nat) [[1; 0; 0; 0; 0; 0; 0; 0]] in
  fst (get_obstacles w) = Fulfilled [1; 0] /\
  U8.get [1; 0] 0 = JS.Num 1%float /\
  U8.get [1; 0] 1 = JS.Num 0%float /\
  JS.strict_eq (U8.get [1; 0] 0) (JS.Bool true) = false /\
  JS.strict_eq (U8.get [1; 0] 1) (JS.Bool false) = false.
Proof. vm_compute. repeat split; reflexivity. Qed.

(** [convAccel] itself computes the gravities of every raw byte. *)
Lemma convAccel_gravities_nat (n : nat) :
  (n < 256)%nat ->
  convAccel (JS.Num (JS.of_Z (Z.of_nat n))) = JS.Num (gravities (Z.of_nat n)).
Proof.
  intros Hn.
  do 256 (destruct n as [|n]; [vm_compute; reflexivity|]).
  lia.
Qed.

Lemma convAccel_gravities (a : Z) :
  is_byte a -> convAccel (JS.Num (JS.of_Z a)) = JS.Num (gravities a).
Proof.
  unfold is_byte. intros Ha.
  rewrite <- (Z2Nat.id a) by lia. apply convAccel_gravities_nat. lia.
Qed.

(** The tap and shake flags are bits 0x20 and 0x80 of the byte read. *)
Lemma flag_bits (b : Z) :
  is_byte b ->
  negb (JS.bit_and (JS.Num (JS.of_Z b)) (JS.Num 0x20%float) =? 0) = Z.testbit b 5 /\
  negb (JS.bit_and (JS.Num (JS.of_Z b)) (JS.Num 0x80%float) =? 0) = Z.testbit b 7.
Proof.
  intros Hb.
  pose proof (for_all_bytes
    (fun b =>
       Bool.eqb (negb (JS.bit_and (JS.Num (JS.of_Z b)) (JS.Num 0x20%float) =? 0))
                (Z.testbit b 5) &&
       Bool.eqb (negb (JS.bit_and (JS.Num (JS.of_Z b)) (JS.Num 0x80%float) =? 0))
                (Z.testbit b 7))) as Hall.
  specialize (Hall ltac:(vm_compute; reflexivity) b Hb).
  apply andb_prop in Hall. destruct Hall as [H5 H7].
  split; apply Bool.eqb_prop; assumption.
Qed.

(** For a full response, what [get_acceleration] resolves with: each axis
    is the converted reading as the typed array of [map] keeps it, an
    integer in 0..255, and the flags are the two bits of byte 4. *)
Lemma get_acceleration_run (w : World) (h : handle) (b0 b1 b2 b3 b4 : Z)
    (data : list Z) (rest : list (list Z)) :
  window_device w = Some h ->
  inbox w = (b0 :: b1 :: b2 :: b3 :: b4 :: data) :: rest ->
  Forall is_byte [b0; b1; b2; b4] ->
  fst (get_acceleration w) =
  Fulfilled
    (mkAcceleration
       (JS.Num (JS.of_Z (JS.to_uint8 (JS.Num (gravities b0)))))
       (JS.Num (JS.of_Z (JS.to_uint8 (JS.Num (gravities b1)))))
       (JS.Num (JS.of_Z (JS.to_uint8 (JS.Num (gravities b2)))))
       (Z.testbit b4 5) (Z.testbit b4 7)).
Proof.
  intros Hdev Hin Hbytes.
  apply Forall_cons in Hbytes as [H0 Hbytes].
  apply Forall_cons in Hbytes as [H1 Hbytes].
  apply Forall_cons in Hbytes as [H2 Hbytes].
  apply Forall_cons in Hbytes as [H4 _].
  unfold get_acceleration.
  rewrite (query_run "A" _ w h _ rest Hdev Hin).
  cbn [fst U8.slice0 take firstn U8.map List.map U8.get lookup list_lookup].
  rewrite !convAccel_gravities by assumption.
  destruct (flag_bits b4 H4) as [-> ->]. reflexivity.
Qed.

(** C7, on the code. For the response [40, 0, 0, 0, 0, ...] the spec
    expects x = -1.2 G; [convAccel] does compute -1.2000000000000002 for
    the raw byte 40, but [map] stores it into a [Uint8Array], so
    [get_acceleration] resolves with x = 255.  The flags are as stated
    (both clear here, as byte 4 is 0). *)
Theorem get_acceleration_axes_stored_as_bytes :
  let w := page (Some 0%nat) [[40; 0; 0; 0; 0; 0; 0; 0]] in
  convAccel (JS.Num 40%float) = JS.Num (-1.2000000000000002)%float /\
  fst (get_acceleration w) =
  Fulfilled (mkAcceleration (JS.Num 255%float) (JS.Num 0%float) (JS.Num 0%float)
               false false).
Proof. vm_compute. split; reflexivity. Qed.

(** ** The session *)

Lemma drop_trace_app (t new : list call) : drop (length t) (t ++ new) = new.
Proof. apply drop_app_length. Qed.

Lemma drop_trace_same (t : list call) : drop (length t) t = [].
Proof. apply drop_all. Qed.

Lemma drop_trace_app2 (t : list call) (a b : call) :
  drop (length t) ((t ++ [a]) ++ [b]) = [a; b].
Proof. rewrite <- app_assoc. apply drop_app_length. Qed.

(** C10. On entry [run] asks the host for a device only when
    [window.device] holds none, and calls [open()] only on a handle that
    is not already open; an existing handle is kept, and when it is
    already open entry makes no call at all, so no second connection is
    made. *)
Theorem connect_reuses_existing_handle (w : World) :
  (RequestDevice ∈ calls_made connect w <-> window_device w = None) /\
  (forall h : handle,
     Open h ∈ calls_made connect w <->
     window_device (snd (connect w)) = Some h /\ is_opened h w = false) /\
  (forall h : handle,
     window_device w = Some h -> window_device (snd (connect w)) = Some h) /\
  (forall h : handle,
     window_device w = Some h -> is_opened h w = true ->
     connect w = (Fulfilled tt, w)).
Proof.
  destruct w as [dev cid op gr lk ib tr].
  destruct dev as [h0|]; [|destruct gr as [|g gr]];
    cbv [connect bind requestDevice device_opened device_open ret is_opened
         calls_made window_device opened granted locked trace log set_device
         set_opened snd fst head];
    [ destruct (bool_decide (h0 ∈ op)) eqn:Hop;
      [|destruct (bool_decide (h0 ∈ lk))]
    |
    | destruct (bool_decide (g ∈ op)) eqn:Hop;
      [|destruct (bool_decide (g ∈ lk))] ];
    rewrite ?drop_trace_app2, ?drop_trace_app, ?drop_trace_same;
    repeat split; intros;
    rewrite ?elem_of_cons, ?elem_of_nil in *;
    destruct_and?; destruct_or?; simplify_eq; try congruence; auto.
Qed.

(** Awaiting in sequence is associative. *)
Lemma bind_assoc {A B C : Type} (m : M A) (f : A -> M B) (g : B -> M C)
    (w : World) :
  bind (bind m f) g w = bind m (fun a => bind (f a) g) w.
Proof. unfold bind. destruct (m w) as [[a|e|] w']; reflexivity. Qed.

Lemma idle_frame_sent : send_frame "R" [JS.Num 0%float] = idle_frame.
Proof. reflexivity. Qed.

Lemma teardown_run (w : World) (h : handle) :
  window_device w = Some h ->
  teardown w = (Fulfilled tt, closes h (sends h idle_frame w)).
Proof.
  intros Hdev.
  unfold teardown, bind, send, sendReport, device_close, closes, sends.
  rewrite Hdev, idle_frame_sent. simpl. rewrite Hdev. reflexivity.
Qed.

(** Connecting and the handshake make no teardown call. *)
Lemma entry_calls (w w1 : World) :
  (connect ;; handshake) w = (Fulfilled tt, w1) ->
  exists pre : list call,
    trace w1 = trace w ++ pre /\ List.filter is_teardown_call pre = [].
Proof.
  destruct w as [dev cid op gr lk ib tr].
  destruct dev as [h0|]; [|destruct gr as [|g gr]];
    cbv [connect handshake send sendReport recv bind requestDevice
         device_opened device_open ret is_opened window_device opened granted
         locked trace inbox log set_device set_opened set_inbox set_cmdId
         snd fst head];
    [ destruct (bool_decide (h0 ∈ op)); [|destruct (bool_decide (h0 ∈ lk))]
    |
    | destruct (bool_decide (g ∈ op)); [|destruct (bool_decide (g ∈ lk))] ];
    try discriminate;
    (destruct ib as [|report ib]; [discriminate|]);
    intros [= <-]; cbv [trace]; rewrite <- ?app_assoc;
    eexists; (split; [reflexivity|]); vm_compute; reflexivity.
Qed.

(** X17. When the task passed to [run] completes normally (and makes no
    teardown call of its own), the teardown is performed: [run] sends the
    idle command 'R' with one zero parameter byte exactly once, then
    calls [close()] exactly once, and these are the last two calls of the
    session. *)
Theorem run_teardown_after_completed_task (prog : M unit) (w w1 w2 : World)
    (h : handle) (task_calls : list call) :
  (connect ;; handshake) w = (Fulfilled tt, w1) ->
  prog w1 = (Fulfilled tt, w2) ->
  trace w2 = trace w1 ++ task_calls ->
  List.filter is_teardown_call task_calls = [] ->
  window_device w2 = Some h ->
  run_body prog w = (Fulfilled tt, closes h (sends h idle_frame w2)) /\
  trace (run prog w) = trace w2 ++ [SendReport h 0 idle_frame; Close h] /\
  performs_teardown prog w.
Proof.
  intros Hentry Hprog Hcalls Hquiet Hdev.
  assert (Hrun : run_body prog w =
                 (Fulfilled tt, closes h (sends h idle_frame w2))).
  { unfold run_body. rewrite <- bind_assoc.
    unfold bind at 1. rewrite Hentry.
    unfold bind at 1. rewrite Hprog.
    apply teardown_run, Hdev. }
  assert (Htrace : trace (run prog w) =
                   trace w2 ++ [SendReport h 0 idle_frame; Close h]).
  { unfold run. rewrite Hrun. simpl. rewrite <- app_assoc. reflexivity. }
  split; [exact Hrun|]. split; [exact Htrace|].
  exists h. rewrite Htrace, Hcalls.
  destruct (entry_calls w w1 Hentry) as [pre [Hpre Hnone]].
  rewrite Hpre, <- !app_assoc, drop_app_length, !List.filter_app, Hnone, Hquiet.
  reflexivity.
Qed.

Lemma run_teardown_after_completed_task_witness :
  trace (run example_task fresh_page) =
  [RequestDevice; Open 0%nat;
   SendReport 0%nat 0 [122; 0; 0; 0; 0; 0; 0; 0];
   SendReport 0%nat 0 [77; 0; 255; 0; 255; 0; 0; 0];
   SetTimeout 1000%float;
   SendReport 0%nat 0 idle_frame; Close 0%nat] /\
  performs_teardown example_task fresh_page.
Proof.
  pose proof (run_teardown_after_completed_task example_task fresh_page
                (snd ((connect ;; handshake) fresh_page))
                (snd (example_task (snd ((connect ;; handshake) fresh_page))))
                0%nat
                [SendReport 0%nat 0 [77; 0; 255; 0; 255; 0; 0; 0];
                 SetTimeout 1000%float]
                eq_refl eq_refl eq_refl eq_refl eq_refl) as [_ [Htrace Hdone]].
  split; [exact Htrace | exact Hdone].
Defined.

(** C1, on the code. The documentation of [run] promises that the robot
    is disconnected after any code runs, and the teardown is due whatever
    the outcome of the task; but [run] has no handler around
    [await prog()], so for a task that throws the body ends there, with
    the wheels command sent and neither the idle command nor
    [close()]. *)
Lemma throwing_task_skips_teardown :
  fst (run_body failing_task fresh_page) = Rejected (Thrown "boom") /\
  trace (run failing_task fresh_page) =
  [RequestDevice; Open 0%nat;
   SendReport 0%nat 0 [122; 0; 0; 0; 0; 0; 0; 0];
   SendReport 0%nat 0 [77; 0; 255; 0; 255; 0; 0; 0]] /\
  ~ performs_teardown failing_task fresh_page.
Proof.
  split; [reflexivity|]. split; [reflexivity|].
  intros [h Hdone]. vm_compute in Hdone. discriminate Hdone.
Qed.

(** * Further properties of the driver *)

(** ** Frames, whatever the arguments *)

Lemma to_uint8_is_byte (v : JS.value) : is_byte (JS.to_uint8 v).
Proof.
  unfold JS.to_uint8. destruct (JS.truncate (JS.to_number v)) as [t|].
  - apply mod_256_byte.
  - unfold is_byte. lia.
Qed.

(** X1. Whatever the command string and the parameter array (any length,
    any values), the frame that [send] builds has exactly 8 cells, each a
    byte in 0..255; an empty command string gives the code 0. *)
Theorem send_frame_well_formed (cmd : string) (msg : list JS.value) :
  length (send_frame cmd msg) = 8%nat /\
  Forall is_byte (send_frame cmd msg) /\
  send_frame "" msg !! 0%nat = Some 0.
Proof.
  split; [|split].
  - rewrite send_frame_closed, length_take, length_cons, length_app,
      length_replicate. lia.
  - rewrite send_frame_closed. apply Forall_take, Forall_cons. split.
    + apply to_uint8_is_byte.
    + apply Forall_app. split.
      * apply Forall_fmap, Forall_forall. intros v _. apply to_uint8_is_byte.
      * apply Forall_replicate. unfold is_byte. lia.
  - rewrite send_frame_lookup. reflexivity.
Qed.

(** X2. A trailing zero parameter does not show on the wire: [send(cmd,
    msg)] and [send(cmd, msg.concat([0]))] build the same frame, so the
    [[0]] of a command without parameters and the [[]] of a query give
    the same bytes after the command code. *)
Theorem send_frame_trailing_zero (cmd : string) (msg : list JS.value) :
  send_frame cmd (msg ++ [JS.Num 0%float]) = send_frame cmd msg.
Proof.
  rewrite !send_frame_closed.
  rewrite fmap_app, <- app_assoc.
  change (JS.to_uint8 <$> [JS.Num 0%float]) with [0].
  apply list_eq. intros j.
  destruct (decide (j < 8)%nat) as [Hj|Hj].
  - rewrite !lookup_take_lt by assumption.
    destruct j as [|j]; [reflexivity|].
    rewrite !lookup_cons_ne_0 by lia.
    replace (Nat.pred (S j)) with j by lia.
    destruct (decide (j < length (JS.to_uint8 <$> msg))%nat) as [Hm|Hm].
    + rewrite !lookup_app_l by assumption. reflexivity.
    + rewrite (lookup_app_r (JS.to_uint8 <$> msg) ([0] ++ replicate 7 0)) by lia.
      rewrite (lookup_app_r (JS.to_uint8 <$> msg) (replicate 7 0)) by lia.
      remember (j - length (JS.to_uint8 <$> msg))%nat as k eqn:Hk.
      assert (Hk8 : (k < 7)%nat) by lia.
      do 7 (destruct k as [|k]; [reflexivity|]). lia.
  - rewrite !lookup_take_ge by lia. reflexivity.
Qed.

(** ** Actuator commands *)

Lemma elem_of_ints_from (lo : Z) (n : nat) (v : Z) :
  lo <= v < lo + Z.of_nat n -> v ∈ ints_from lo n.
Proof.
  intros Hv. unfold ints_from.
  apply list_elem_of_fmap. exists (Z.to_nat (v - lo)). split; [lia|].
  apply elem_of_seq. lia.
Qed.

Lemma for_all_ints (lo : Z) (n : nat) (p : Z -> bool) :
  forallb p (ints_from lo n) = true ->
  forall v : Z, lo <= v < lo + Z.of_nat n -> p v = true.
Proof.
  intros Hall v Hv. rewrite forallb_forall in Hall. apply Hall.
  apply list_elem_of_In, elem_of_ints_from, Hv.
Qed.

(** An integer stored into a typed array is reduced modulo 256: it wraps,
    it is not clamped. *)
Lemma to_uint8_of_int (n : Z) :
  -2048 <= n < 2048 -> JS.to_uint8 (int n) = n mod 256.
Proof.
  intros Hn. apply Z.eqb_eq.
  apply (for_all_ints (-2048) 4096
           (fun n => JS.to_uint8 (int n) =? n mod 256));
    [vm_compute; reflexivity | lia].
Qed.

(** X3. [wheels(left, right)] on integer speeds sends one 'M' frame whose
    bytes 2 and 4 are the speeds reduced modulo 256 and whose other
    parameter bytes are zero: a speed outside 0..255 wraps around (256
    stops the wheel, -1 is full speed) instead of being clamped or
    rejected. *)
Theorem wheels_speeds_wrap (left right : Z) (w : World) (h : handle) :
  -2048 <= left < 2048 ->
  -2048 <= right < 2048 ->
  window_device w = Some h ->
  wheels (int left) (int right) w =
  (Fulfilled tt,
   sends h [77; 0; left mod 256; 0; right mod 256; 0; 0; 0] w).
Proof.
  intros Hl Hr Hdev. unfold wheels, send, sendReport, sends. rewrite Hdev.
  rewrite send_frame_closed. cbn [fmap list_fmap].
  rewrite !to_uint8_of_int by assumption. reflexivity.
Qed.

Lemma wheels_speeds_wrap_witness :
  wheels (int 256) (int (-1)) (page (Some 0%nat) []) =
  (Fulfilled tt,
   sends 0%nat [77; 0; 0; 0; 255; 0; 0; 0] (page (Some 0%nat) [])).
Proof.
  apply (wheels_speeds_wrap 256 (-1) (page (Some 0%nat) []) 0%nat);
    [lia | lia | reflexivity].
Defined.

(** X4. [led(r, g, b)] on integer components sends one 'O' frame with the
    three components, each reduced modulo 256, in bytes 1 to 3 and zeros
    after them. *)
Theorem led_components_wrap (r g b : Z) (w : World) (h : handle) :
  -2048 <= r < 2048 ->
  -2048 <= g < 2048 ->
  -2048 <= b < 2048 ->
  window_device w = Some h ->
  led (int r) (int g) (int b) w =
  (Fulfilled tt,
   sends h [79; r mod 256; g mod 256; b mod 256; 0; 0; 0; 0] w).
Proof.
  intros Hr Hg Hb Hdev. unfold led, send, sendReport, sends. rewrite Hdev.
  rewrite send_frame_closed. cbn [fmap list_fmap].
  rewrite !to_uint8_of_int by assumption. reflexivity.
Qed.

Lemma led_components_wrap_witness :
  led (int 255) (int 0) (int 511) (page (Some 0%nat) []) =
  (Fulfilled tt,
   sends 0%nat [79; 255; 0; 255; 0; 0; 0; 0] (page (Some 0%nat) [])).
Proof.
  apply (led_components_wrap 255 0 511 (page (Some 0%nat) []) 0%nat);
    [lia | lia | lia | reflexivity].
Defined.

(** ** Calls made outside a session, and answers that never come *)

(** X5. With no device in [window.device] (a call made outside [run]),
    every command and every query is rejected with a TypeError and leaves
    the world as it was: nothing is sent, no report is taken, and [buzz]
    does not even start its timer. *)
Theorem commands_need_a_device (w : World) (a b c : JS.value) :
  window_device w = None ->
  wheels a b w = (Rejected TypeError, w) /\
  buzz a b w = (Rejected TypeError, w) /\
  led a b c w = (Rejected TypeError, w) /\
  halt w = (Rejected TypeError, w) /\
  get_obstacles w = (Rejected TypeError, w) /\
  get_acceleration w = (Rejected TypeError, w) /\
  get_temperature w = (Rejected TypeError, w) /\
  get_light w = (Rejected TypeError, w).
Proof.
  intros Hdev.
  unfold wheels, buzz, led, halt, get_obstacles, get_acceleration,
    get_temperature, get_light, send_with_extra, send, sendReport, bind.
  rewrite Hdev. repeat split; reflexivity.
Qed.

Lemma commands_need_a_device_witness :
  buzz (int 1) (int 440) (page None []) = (Rejected TypeError, page None []).
Proof.
  apply (commands_need_a_device (page None []) (int 1) (int 440) (int 0)).
  reflexivity.
Defined.

(** A query whose answer never comes: the frame is sent and the promise
    stays pending. *)
Lemma query_unanswered {A : Type} (cmd : string) (decode : list Z -> A)
    (w : World) (h : handle) :
  window_device w = Some h ->
  inbox w = [] ->
  (send cmd [] ;; data <- recv ;; ret (decode data)) w =
  (Pending, sends h (send_frame cmd []) w).
Proof.
  intros Hdev Hin. unfold bind, send, sendReport, recv, ret, sends.
  rewrite Hdev. simpl. rewrite Hdev, Hin. reflexivity.
Qed.

(** X6. When the device delivers no report, each of the four queries has
    sent its frame (command code and seven zeros) and never settles: it
    neither resolves nor raises, there is no timeout. *)
Theorem queries_wait_for_a_report (w : World) (h : handle) :
  window_device w = Some h ->
  inbox w = [] ->
  get_obstacles w = (Pending, sends h [73; 0; 0; 0; 0; 0; 0; 0] w) /\
  get_acceleration w = (Pending, sends h [65; 0; 0; 0; 0; 0; 0; 0] w) /\
  get_temperature w = (Pending, sends h [84; 0; 0; 0; 0; 0; 0; 0] w) /\
  get_light w = (Pending, sends h [76; 0; 0; 0; 0; 0; 0; 0] w).
Proof.
  intros Hdev Hin.
  unfold get_obstacles, get_acceleration, get_temperature, get_light.
  rewrite !(query_unanswered _ _ w h Hdev Hin). repeat split; reflexivity.
Qed.

Lemma queries_wait_for_a_report_witness :
  get_light (page (Some 0%nat) []) =
  (Pending, sends 0%nat [76; 0; 0; 0; 0; 0; 0; 0] (page (Some 0%nat) [])).
Proof.
  apply (queries_wait_for_a_report (page (Some 0%nat) []) 0%nat);
    reflexivity.
Defined.

(** ** More on the session *)

Lemma bind_fulfilled {A B : Type} (m : M A) (k : A -> M B) (w w' : World)
    (b : B) :
  bind m k w = (Fulfilled b, w') ->
  exists (a : A) (w1 : World), m w = (Fulfilled a, w1) /\ k a w1 = (Fulfilled b, w').
Proof.
  unfold bind. destruct (m w) as [[a|e|] w1]; intros H; try discriminate H.
  exists a, w1. split; [reflexivity | exact H].
Qed.

(** Once connected, [window.device] holds an open device, and no report
    has been taken. *)
Lemma connect_fulfilled (w w1 : World) :
  connect w = (Fulfilled tt, w1) ->
  exists h : handle,
    window_device w1 = Some h /\ is_opened h w1 = true /\ inbox w1 = inbox w.
Proof.
  destruct w as [dev cid op gr lk ib tr].
  destruct dev as [h0|]; [|destruct gr as [|g gr]];
    cbv [connect bind requestDevice device_opened device_open ret is_opened
         window_device opened granted locked trace inbox log set_device
         set_opened snd fst head];
    [ destruct (bool_decide (h0 ∈ op)) eqn:Hop;
      [|destruct (bool_decide (h0 ∈ lk))]
    |
    | destruct (bool_decide (g ∈ op)) eqn:Hop;
      [|destruct (bool_decide (g ∈ lk))] ];
    intros [= <-]; eexists; cbv [window_device opened inbox];
    (split; [reflexivity|]); (split; [|reflexivity]);
    try exact Hop; apply bool_decide_eq_true_2; left.
Qed.

Lemma run_body_after_connect (prog : M unit) (w w1 : World) :
  connect w = (Fulfilled tt, w1) ->
  run_body prog w = (handshake ;; prog ;; teardown) w1.
Proof. intros Hc. unfold run_body. unfold bind at 1. rewrite Hc. reflexivity. Qed.

(** X8. If the device never answers the identification query, [run] has
    sent the 'z' frame and stays pending there: the caller's task is
    never started, whatever it is, and neither the idle command nor
    [close()] follows. *)
Theorem run_waits_for_the_handshake (prog : M unit) (w w1 : World) :
  connect w = (Fulfilled tt, w1) ->
  inbox w = [] ->
  exists h : handle,
    window_device w1 = Some h /\
    run_body prog w = (Pending, sends h identify_frame w1).
Proof.
  intros Hc Hin.
  destruct (connect_fulfilled w w1 Hc) as [h [Hdev [_ Hsame]]].
  exists h. split; [exact Hdev|].
  rewrite (run_body_after_connect prog w w1 Hc).
  unfold bind at 1. unfold handshake, bind, send, sendReport, recv, sends.
  rewrite Hdev. cbn [window_device log inbox]. rewrite Hdev, Hsame, Hin.
  reflexivity.
Qed.

Lemma run_waits_for_the_handshake_witness :
  exists h : handle,
    window_device (page (Some 0%nat) []) = Some h /\
    run_body example_task (page (Some 0%nat) []) =
    (Pending, sends h identify_frame (page (Some 0%nat) [])).
Proof.
  apply (run_waits_for_the_handshake example_task (page (Some 0%nat) [])
           (page (Some 0%nat) [])); reflexivity.
Defined.

(** X9. The answer to the identification query does not gate the task:
    whatever report comes first, [run] takes exactly that one report,
    stores its first byte in [window.cmdId] ([undefined] when the report
    is empty) and goes on with the task and the teardown. *)
Theorem handshake_records_cmdId (prog : M unit) (w w1 : World) (h : handle)
    (report : list Z) (rest : list (list Z)) :
  connect w = (Fulfilled tt, w1) ->
  window_device w1 = Some h ->
  inbox w1 = report :: rest ->
  run_body prog w =
  (prog ;; teardown)
    (set_cmdId (U8.get report 0)
       (set_inbox rest (sends h identify_frame w1))).
Proof.
  intros Hc Hdev Hin.
  rewrite (run_body_after_connect prog w w1 Hc).
  unfold bind at 1. unfold handshake, bind, send, sendReport, recv, sends.
  rewrite Hdev. cbn [window_device log inbox]. rewrite Hdev, Hin.
  reflexivity.
Qed.

Lemma handshake_records_cmdId_witness :
  run_body example_task (page (Some 0%nat) [[]]) =
  (example_task ;; teardown)
    (set_cmdId JS.Undefined
       (set_inbox [] (sends 0%nat identify_frame (page (Some 0%nat) [[]])))).
Proof.
  apply (handshake_records_cmdId example_task (page (Some 0%nat) [[]])
           (page (Some 0%nat) [[]]) 0%nat [] []); reflexivity.
Defined.

Lemma teardown_fulfilled (w w' : World) :
  teardown w = (Fulfilled tt, w') ->
  exists h : handle,
    window_device w = Some h /\ w' = closes h (sends h idle_frame w).
Proof.
  intros Ht. destruct (window_device w) as [h|] eqn:Hdev.
  - exists h. split; [reflexivity|].
    rewrite (teardown_run w h Hdev) in Ht. congruence.
  - unfold teardown, bind, send, sendReport in Ht. rewrite Hdev in Ht.
    discriminate Ht.
Qed.

(** X10. After a session that ran to its end, the device is closed but
    its handle stays in [window.device]: the entry of the next [run]
    makes exactly one call, [open()] on that same handle, and does not
    ask the user for a device again. *)
Theorem next_run_reopens_same_handle (prog : M unit) (w w' : World) :
  run_body prog w = (Fulfilled tt, w') ->
  exists h : handle,
    window_device w' = Some h /\
    is_opened h w' = false /\
    calls_made connect w' = [Open h].
Proof.
  intros Hrun. unfold run_body in Hrun.
  apply bind_fulfilled in Hrun as [_ [wa [_ Hrun]]].
  apply bind_fulfilled in Hrun as [_ [wb [_ Hrun]]].
  apply bind_fulfilled in Hrun as [_ [wc [_ Hrun]]].
  apply teardown_fulfilled in Hrun as [h [Hdev ->]].
  exists h.
  assert (Hclosed : is_opened h (closes h (sends h idle_frame wc)) = false).
  { unfold is_opened, closes. cbn [opened set_opened].
    apply bool_decide_eq_false_2. intros Hin.
    apply list_elem_of_filter in Hin as [Hne _]. apply Hne. reflexivity. }
  assert (Hkept : window_device (closes h (sends h idle_frame wc)) = Some h)
    by exact Hdev.
  split; [exact Hkept|]. split; [exact Hclosed|].
  remember (closes h (sends h idle_frame wc)) as wd eqn:Hwd. clear Hwd.
  unfold calls_made, connect, bind, device_opened, device_open, ret.
  rewrite !Hkept, Hclosed, Hkept.
  destruct (bool_decide (h ∈ locked wd));
    cbn [snd trace log set_opened]; apply drop_app_length.
Qed.

Lemma next_run_reopens_same_handle_witness :
  exists h : handle,
    window_device (run example_task fresh_page) = Some h /\
    is_opened h (run example_task fresh_page) = false /\
    calls_made connect (run example_task fresh_page) = [Open h].
Proof.
  apply (next_run_reopens_same_handle example_task fresh_page
           (run example_task fresh_page)).
  vm_compute. reflexivity.
Defined.

(** X11. When the user grants no device, [run] has called
    [requestDevice] and ends with a TypeError on [device.opened]:
    nothing is opened or sent and the caller's task is never started. *)
Theorem run_without_granted_device (prog : M unit) (w : World) :
  window_device w = None ->
  granted w = [] ->
  run_body prog w = (Rejected TypeError, set_device None (log RequestDevice w)).
Proof.
  intros Hdev Hgr.
  unfold run_body, connect, bind, requestDevice, device_opened.
  rewrite Hdev, Hgr. reflexivity.
Qed.

Lemma run_without_granted_device_witness :
  run_body failing_task (page None []) =
  (Rejected TypeError, set_device None (log RequestDevice (page None []))).
Proof.
  apply (run_without_granted_device failing_task (page None []));
    reflexivity.
Defined.

(** ** More on the sensor readings *)

(** X12. For any report of bytes, [get_obstacles] resolves with as many
    elements as the report has bytes, two at most; element [i] is the
    number 1 when byte [i] is 1 and the number 0 for every other value
    (2..255 count as no obstacle). *)
Theorem obstacle_flags_from_report (w : World) (h : handle) (data : list Z)
    (rest : list (list Z)) :
  window_device w = Some h ->
  inbox w = data :: rest ->
  Forall is_byte data ->
  exists flags : list Z,
    fst (get_obstacles w) = Fulfilled flags /\
    length flags = Nat.min 2 (length data) /\
    (forall (i : nat) (b : Z),
       (i < 2)%nat -> data !! i = Some b ->
       flags !! i = Some (obstacle_stored b)).
Proof.
  intros Hdev Hin Hbytes.
  rewrite (get_obstacles_run w h data rest Hdev Hin Hbytes).
  eexists. split; [reflexivity|]. split.
  - rewrite length_fmap, length_take. reflexivity.
  - intros i b Hi Hb. rewrite list_lookup_fmap, lookup_take_lt by assumption.
    rewrite Hb. reflexivity.
Qed.

Lemma obstacle_flags_from_report_witness :
  exists flags : list Z,
    fst (get_obstacles (page (Some 0%nat) [[2; 1]])) = Fulfilled flags /\
    length flags = Nat.min 2 (length [2; 1]) /\
    (forall (i : nat) (b : Z),
       (i < 2)%nat -> [2; 1] !! i = Some b ->
       flags !! i = Some (obstacle_stored b)).
Proof.
  apply (obstacle_flags_from_report (page (Some 0%nat) [[2; 1]]) 0%nat
           [2; 1] []); [reflexivity | reflexivity |].
  repeat constructor; unfold is_byte; lia.
Defined.

Lemma for_all_upto (n : nat) (p : Z -> bool) :
  forallb p (bytes_upto n) = true ->
  forall b : Z, 0 <= b < Z.of_nat n -> p b = true.
Proof.
  intros Hall b Hb. rewrite forallb_forall in Hall. apply Hall.
  apply list_elem_of_In. unfold bytes_upto.
  apply list_elem_of_fmap. exists (Z.to_nat b). split; [lia|].
  apply elem_of_seq. lia.
Qed.

Lemma gravities_stored (raw : Z) :
  0 <= raw < 64 -> JS.to_uint8 (JS.Num (gravities raw)) = axis_stored raw.
Proof.
  intros Hraw. apply Z.eqb_eq.
  apply (for_all_upto 64
           (fun raw => JS.to_uint8 (JS.Num (gravities raw)) =? axis_stored raw));
    [vm_compute; reflexivity | exact Hraw].
Qed.

(** X13. For a report of at least five bytes whose three axis bytes are
    6-bit readings, [get_acceleration] resolves with axes that are only
    1 (raw 20..31, +1 G and more), 255 (raw 32..44, -1 G and less) or 0
    (everything in between), with [tap] bit 0x20 and [shake] bit 0x80 of
    byte 4. *)
Theorem acceleration_from_report (w : World) (h : handle)
    (b0 b1 b2 b3 b4 : Z) (data : list Z) (rest : list (list Z)) :
  window_device w = Some h ->
  inbox w = (b0 :: b1 :: b2 :: b3 :: b4 :: data) :: rest ->
  0 <= b0 < 64 -> 0 <= b1 < 64 -> 0 <= b2 < 64 -> is_byte b4 ->
  fst (get_acceleration w) =
  Fulfilled
    (mkAcceleration (int (axis_stored b0)) (int (axis_stored b1))
       (int (axis_stored b2)) (Z.testbit b4 5) (Z.testbit b4 7)).
Proof.
  intros Hdev Hin H0 H1 H2 H4.
  rewrite (get_acceleration_run w h b0 b1 b2 b3 b4 data rest Hdev Hin).
  - rewrite !gravities_stored by assumption. reflexivity.
  - unfold is_byte in *.
    repeat (apply Forall_cons; split; [lia|]). apply Forall_nil_2.
Qed.

Lemma acceleration_from_report_witness :
  fst (get_acceleration (page (Some 0%nat) [[20; 44; 45; 0; 160; 0; 0; 0]])) =
  Fulfilled (mkAcceleration (int 1) (int 255) (int 0) true true).
Proof.
  apply (acceleration_from_report
           (page (Some 0%nat) [[20; 44; 45; 0; 160; 0; 0; 0]]) 0%nat
           20 44 45 0 160 [0; 0; 0] []);
    try reflexivity; unfold is_byte; lia.
Defined.

(** X14. On every 6-bit reading [convAccel] stays within -1.6 G and
    +1.55 G, is negative exactly for the readings above 31 and is zero
    only for the reading 0. *)
Theorem convAccel_range (raw : Z) :
  0 <= raw < 64 ->
  let g := number_of (convAccel (int raw)) in
  PrimFloat.leb (-1.6)%float g = true /\
  PrimFloat.leb g 1.55%float = true /\
  PrimFloat.ltb g 0%float = (31 <? raw) /\
  PrimFloat.eqb g 0%float = (raw =? 0).
Proof.
  intros Hraw g. subst g.
  pose proof (for_all_upto 64
    (fun raw =>
       let g := number_of (convAccel (int raw)) in
       PrimFloat.leb (-1.6)%float g && PrimFloat.leb g 1.55%float &&
       Bool.eqb (PrimFloat.ltb g 0%float) (31 <? raw) &&
       Bool.eqb (PrimFloat.eqb g 0%float) (raw =? 0))) as Hall.
  specialize (Hall ltac:(vm_compute; reflexivity) raw Hraw).
  cbv zeta in Hall.
  apply andb_prop in Hall as [Hall Hzero].
  apply andb_prop in Hall as [Hall Hneg].
  apply andb_prop in Hall as [Hlow Hhigh].
  repeat split; try assumption; apply Bool.eqb_prop; assumption.
Qed.

Lemma convAccel_range_witness :
  PrimFloat.leb (-1.6)%float (number_of (convAccel (int 32))) = true /\
  PrimFloat.leb (number_of (convAccel (int 32))) 1.55%float = true /\
  PrimFloat.ltb (number_of (convAccel (int 32))) 0%float = (31 <? 32) /\
  PrimFloat.eqb (number_of (convAccel (int 32))) 0%float = (32 =? 0).
Proof. apply (convAccel_range 32). lia. Defined.

(** X15. On a report shorter than five bytes [get_acceleration] still
    resolves: [tap] and [shake] are both false, and an axis is
    [undefined] exactly when its byte is missing. *)
Theorem acceleration_from_short_report (w : World) (h : handle)
    (data : list Z) (rest : list (list Z)) :
  window_device w = Some h ->
  inbox w = data :: rest ->
  (length data < 5)%nat ->
  exists a : acceleration,
    fst (get_acceleration w) = Fulfilled a /\
    tap a = false /\ shake a = false /\
    (x a = JS.Undefined <-> (length data <= 0)%nat) /\
    (y a = JS.Undefined <-> (length data <= 1)%nat) /\
    (z a = JS.Undefined <-> (length data <= 2)%nat).
Proof.
  intros Hdev Hin Hlen. unfold get_acceleration.
  rewrite (query_run "A" _ w h data rest Hdev Hin).
  eexists. split; [reflexivity|].
  destruct data as [|b0 [|b1 [|b2 [|b3 [|b4 more]]]]];
    cbn [length] in Hlen; try lia;
    cbn [tap shake x y z U8.get U8.map U8.slice0 take firstn List.map lookup
         list_lookup length];
    repeat split; try reflexivity; try lia; try discriminate; intros _; lia.
Qed.

Lemma acceleration_from_short_report_witness :
  exists a : acceleration,
    fst (get_acceleration (page (Some 0%nat) [[10; 20]])) = Fulfilled a /\
    tap a = false /\ shake a = false /\
    (x a = JS.Undefined <-> (length [10; 20] <= 0)%nat) /\
    (y a = JS.Undefined <-> (length [10; 20] <= 1)%nat) /\
    (z a = JS.Undefined <-> (length [10; 20] <= 2)%nat).
Proof.
  apply (acceleration_from_short_report (page (Some 0%nat) [[10; 20]]) 0%nat
           [10; 20] []); [reflexivity | reflexivity | simpl; lia].
Defined.

(** X16. The temperature decoded from a raw byte is strictly increasing
    in the byte, so it lies between the values for 0 and for 255, about
    -27.9 and 78.3 degrees Celsius. *)
Theorem temperature_increases_with_raw_byte (b1 b2 : Z) :
  is_byte b1 -> is_byte b2 ->
  (b1 < b2 -> PrimFloat.ltb (celsius (int b1)) (celsius (int b2)) = true) /\
  PrimFloat.leb (celsius (int 0)) (celsius (int b1)) = true /\
  PrimFloat.leb (celsius (int b1)) (celsius (int 255)) = true /\
  PrimFloat.ltb (-27.92)%float (celsius (int 0)) = true /\
  PrimFloat.ltb (celsius (int 255)) 78.34%float = true.
Proof.
  intros H1 H2.
  pose proof (for_all_bytes
    (fun b1 =>
       PrimFloat.leb (celsius (int 0)) (celsius (int b1)) &&
       PrimFloat.leb (celsius (int b1)) (celsius (int 255)) &&
       forallb
         (fun b2 =>
            implb (b1 <? b2)
              (PrimFloat.ltb (celsius (int b1)) (celsius (int b2))))
         (bytes_upto 256))) as Hall.
  specialize (Hall ltac:(vm_compute; reflexivity) b1 H1).
  apply andb_prop in Hall as [Hall Hmono].
  apply andb_prop in Hall as [Hlow Hhigh].
  pose proof (for_all_bytes _ Hmono b2 H2) as Hlt. cbv beta in Hlt.
  repeat split; try assumption; try reflexivity.
  intros Hb. apply Z.ltb_lt in Hb. rewrite Hb in Hlt. exact Hlt.
Qed.

Lemma temperature_increases_with_raw_byte_witness :
  (126 < 127 -> PrimFloat.ltb (celsius (int 126)) (celsius (int 127)) = true) /\
  PrimFloat.leb (celsius (int 0)) (celsius (int 126)) = true /\
  PrimFloat.leb (celsius (int 126)) (celsius (int 255)) = true /\
  PrimFloat.ltb (-27.92)%float (celsius (int 0)) = true /\
  PrimFloat.ltb (celsius (int 255)) 78.34%float = true.
Proof.
  apply (temperature_increases_with_raw_byte 126 127); unfold is_byte; lia.
Defined.
